(** * Iris classification API: a shallow embedding of the serving path

    The development follows the three serving-side source files:
    - [app/predict.py]: the [ModelService] singleton (module [ModelService]);
    - [app/schemas.py]: the request and response records (module [Schemas]);
    - [app/main.py]: the HTTP handlers (module [Main]).

    Python floats are binary64 values, modelled by Rocq's primitive floats.
    The fitted classifier is an opaque object with two methods; the two
    artifact files are either absent or hold a classifier and a metadata
    mapping.  Methods that read or write [self], touch the file system, log
    or raise are computations in the monad [M] below. *)

From Stdlib Require Import PrimFloat ZArith.
From stdpp Require Import gmap strings list pretty.

#[local] Set Warnings "-inexact-float".

Local Open Scope string_scope.
Local Open Scope Z_scope.
Local Open Scope list_scope.

(** ** Exceptions and results *)

Inductive exn_class :=
  | FileNotFoundError
  | RuntimeError
  | IndexError
  | TypeError
  | AttributeError
  | LibraryError (cls : string).  (* raised inside the opaque classifier *)

(** Every exception on the serving path derives from [Exception]; an
    [HTTPException] carries a status code and a detail. *)
Inductive exception :=
  | PyExc (cls : exn_class) (msg : string)
  | HTTPException (status_code : Z) (detail : string).

(** [str(e)] *)
Definition str (e : exception) : string :=
  match e with
  | PyExc _ msg => msg
  | HTTPException code detail => pretty code +:+ ": " +:+ detail
  end.

Inductive result (A : Type) :=
  | Return (a : A)
  | Raise (e : exception).
Arguments Return {A} a.
Arguments Raise {A} e.

Definition returns {A} (r : result A) : bool :=
  match r with Return _ => true | Raise _ => false end.

(** ** Python values stored in the metadata mapping *)

Inductive pyval :=
  | PyStr (s : string)
  | PyInt (n : Z)
  | PyFloat (x : float)
  | PyList (l : list string).

(** A [dict] with string keys whose order is never observed. *)
Abbreviation dict := (gmap string pyval).

(** [d.get(key, dflt)] *)
Definition dict_get (d : dict) (key : string) (dflt : pyval) : pyval :=
  default dflt (d !! key).

(** An attribute that holds a [dict] or [None]. *)
Abbreviation dict_or_none := (option dict).

(** Truth value: [None] and the empty [dict] are false. *)
Definition truthy (o : dict_or_none) : bool :=
  match o with
  | None => false
  | Some d => match map_to_list d with [] => false | _ :: _ => true end
  end.

(** A [dict] built in insertion order ([probs_dict]): assigning to a key that
    is already present replaces the value and keeps the key's position. *)
Abbreviation odict := (list (string * float)).

Fixpoint dict_setitem (d : odict) (k : string) (v : float) : odict :=
  match d with
  | [] => [(k, v)]
  | (k', v') :: d' =>
      if decide (k' = k) then (k, v) :: d' else (k', v') :: dict_setitem d' k v
  end.

(** [{k: v for k, v in kvs}] *)
Definition dict_comprehension (kvs : list (string * float)) : odict :=
  fold_left (λ d kv, dict_setitem d kv.1 kv.2) kvs [].

Definition keys (d : odict) : list string := d.*1.
Definition values (d : odict) : list float := d.*2.

(** [sum(xs)] over floats, left to right from [0]. *)
Definition fsum (xs : list float) : float := fold_left PrimFloat.add xs 0%float.

(** [o.get(key, dflt)]: [None] has no such method. *)
Definition method_get (o : dict_or_none) (key : string) (dflt : pyval) : result pyval :=
  match o with
  | Some d => Return (dict_get d key dflt)
  | None => Raise (PyExc AttributeError "'NoneType' object has no attribute 'get'")
  end.

(** ** Indexing *)

(** [seq[i]] for a Python sequence or a one-dimensional array: a negative
    index counts from the end, anything outside [-len, len) is an error. *)
Definition py_index {A} (l : list A) (i : Z) : option A :=
  if 0 <=? i then l !! Z.to_nat i
  else if - Z.of_nat (length l) <=? i then l !! Z.to_nat (Z.of_nat (length l) + i)
  else None.

(** The characters of a string, each as a string of length one. *)
Definition chars (s : string) : list string :=
  (λ c, String c EmptyString) <$> String.list_ascii_of_string s.

Definition type_name (v : pyval) : string :=
  match v with
  | PyStr _ => "str" | PyInt _ => "int" | PyFloat _ => "float" | PyList _ => "list"
  end.

(** [v[i]] *)
Definition py_getitem (v : pyval) (i : Z) : result string :=
  match v with
  | PyList l =>
      match py_index l i with
      | Some x => Return x
      | None => Raise (PyExc IndexError "list index out of range")
      end
  | PyStr s =>
      match py_index (chars s) i with
      | Some x => Return x
      | None => Raise (PyExc IndexError "string index out of range")
      end
  | PyInt _ | PyFloat _ =>
      Raise (PyExc TypeError ("'" +:+ type_name v +:+ "' object is not subscriptable"))
  end.

(** [iter(v)], as [zip] and comprehensions consume it. *)
Definition py_iter (v : pyval) : result (list string) :=
  match v with
  | PyList l => Return l
  | PyStr s => Return (chars s)
  | PyInt _ | PyFloat _ =>
      Raise (PyExc TypeError ("'" +:+ type_name v +:+ "' object is not iterable"))
  end.

(** [a[i]] for a one-dimensional numpy array. *)
Definition ndarray_getitem (a : list float) (i : Z) : result float :=
  match py_index a i with
  | Some x => Return x
  | None =>
      Raise (PyExc IndexError
               ("index " +:+ pretty i +:+ " is out of bounds for axis 0 with size "
                  +:+ pretty (length a)))
  end.

(** ** The classifier and the artifact files *)

(** The unpickled classifier: [predict(X)[0]] and [predict_proba(X)[0]] on the
    one-row matrix built from a feature list.  Either call may raise. *)
Record Model := {
  model_predict : list float → result Z;
  model_predict_proba : list float → result (list float);
}.

Definition model_path : string := "model/iris_model.joblib".
Definition metadata_path : string := "model/metadata.joblib".

(** What the two fixed paths hold; [None] when the path does not exist. *)
Record FileSystem := {
  model_file : option Model;
  metadata_file : option dict;
}.

Definition present {A} (file : option A) : bool :=
  match file with Some _ => true | None => false end.

Definition path_present (fs : FileSystem) (p : string) : bool :=
  if decide (p = model_path) then present (model_file fs)
  else if decide (p = metadata_path) then present (metadata_file fs)
  else false.

(** ** Effects *)

Inductive level := INFO | WARNING | ERROR.

(** A log message is the f-string before rendering: literal text and the
    interpolated values whose rendering is left to Python. *)
Inductive fragment :=
  | Lit (s : string)
  | ReprDict (d : dict)
  | ReprFloats (xs : list float)
  | Fixed4 (x : float).

Inductive event :=
  | PathExists (p : string)
  | JoblibLoad (p : string)
  | Log (lv : level) (msg : list fragment).

Definition is_file_access (ev : event) : bool :=
  match ev with PathExists _ | JoblibLoad _ => true | Log _ _ => false end.

(** The instance attributes of the [ModelService] singleton ([self]); the
    class-level defaults make both [None] until [load_model] assigns them. *)
Record Self := {
  _model : option Model;
  _metadata : dict_or_none;
}.

Definition unloaded : Self := {| _model := None; _metadata := None |}.

(** What running a method yields: its value or exception, the attributes of
    the singleton afterwards, and the events in the order they happened. *)
Record outcome (A : Type) := {
  value : result A;
  final : Self;
  trace : list event;
}.
Arguments value {A} o.
Arguments final {A} o.
Arguments trace {A} o.

Definition M (A : Type) : Type := FileSystem → Self → outcome A.

Definition ret {A} (a : A) : M A :=
  λ _ s, {| value := Return a; final := s; trace := [] |}.

Definition bind {A B} (c : M A) (k : A → M B) : M B :=
  λ fs s,
    let o := c fs s in
    match value o with
    | Return a =>
        let o' := k a fs (final o) in
        {| value := value o'; final := final o'; trace := trace o ++ trace o' |}
    | Raise e => {| value := Raise e; final := final o; trace := trace o |}
    end.

Definition raise {A} (e : exception) : M A :=
  λ _ s, {| value := Raise e; final := s; trace := [] |}.

Definition lift {A} (r : result A) : M A :=
  λ _ s, {| value := r; final := s; trace := [] |}.

(** [try: c except Exception as e: h e] *)
Definition try_except {A} (c : M A) (h : exception → M A) : M A :=
  λ fs s,
    let o := c fs s in
    match value o with
    | Return a => o
    | Raise e =>
        let o' := h e fs (final o) in
        {| value := value o'; final := final o'; trace := trace o ++ trace o' |}
    end.

#[global] Instance M_ret : MRet M := @ret.
#[global] Instance M_bind : MBind M := λ A B k c, bind c k.

Definition read_model : M (option Model) :=
  λ _ s, {| value := Return (_model s); final := s; trace := [] |}.
Definition read_metadata : M dict_or_none :=
  λ _ s, {| value := Return (_metadata s); final := s; trace := [] |}.
Definition write_model (m : Model) : M unit :=
  λ _ s, {| value := Return tt;
            final := {| _model := Some m;
                        _metadata := _metadata s |};
            trace := [] |}.
Definition write_metadata (d : dict) : M unit :=
  λ _ s, {| value := Return tt;
            final := {| _model := _model s;
                        _metadata := Some d |};
            trace := [] |}.

Definition log (lv : level) (msg : list fragment) : M unit :=
  λ _ s, {| value := Return tt; final := s; trace := [Log lv msg] |}.

(** [Path(p).exists()] *)
Definition path_exists (p : string) : M bool :=
  λ fs s, {| value := Return (path_present fs p); final := s; trace := [PathExists p] |}.

Definition no_such_file (p : string) : exception :=
  PyExc FileNotFoundError ("[Errno 2] No such file or directory: '" +:+ p +:+ "'").

(** [joblib.load(model_path)] and [joblib.load(metadata_path)] *)
Definition joblib_load_model : M Model :=
  λ fs s, {| value := match model_file fs with
                      | Some m => Return m
                      | None => Raise (no_such_file model_path)
                      end;
             final := s; trace := [JoblibLoad model_path] |}.
Definition joblib_load_metadata : M dict :=
  λ fs s, {| value := match metadata_file fs with
                      | Some d => Return d
                      | None => Raise (no_such_file metadata_path)
                      end;
             final := s; trace := [JoblibLoad metadata_path] |}.

(** A list comprehension whose element expression is a computation. *)
Fixpoint comprehension {A B} (f : A → M B) (xs : list A) : M (list B) :=
  match xs with
  | [] => ret []
  | x :: xs' => y ← f x; ys ← comprehension f xs'; mret (y :: ys)
  end.

(** ** app/predict.py *)

Module ModelService.

Definition load_model : M unit :=
  model ← read_model;
  match model with
  | Some _ => log INFO [Lit "Model already loaded"]
  | None =>
      present ← path_exists model_path;
      if negb present then
        raise (PyExc FileNotFoundError ("Model file not found at " +:+ model_path))
      else
        log INFO [Lit ("Loading model from " +:+ model_path)];;
        loaded ← joblib_load_model;
        write_model loaded;;
        present' ← path_exists metadata_path;
        (if (present' : bool) then
           metadata ← joblib_load_metadata;
           write_metadata metadata;;
           log INFO [Lit "Loaded metadata: "; ReprDict metadata]
         else
           log WARNING [Lit "Metadata file not found"];;
           write_metadata ∅);;
        log INFO [Lit "Model loaded successfully"]
  end.

Definition default_class_names : pyval := PyList ["class_0"; "class_1"; "class_2"].

Definition predict (features : list float) : M (string * float * odict) :=
  model ← read_model;
  match model with
  | None => raise (PyExc RuntimeError "Model not loaded. Call load_model() first.")
  | Some m =>
      prediction ← lift (model_predict m features);
      probabilities ← lift (model_predict_proba m features);
      metadata ← read_metadata;
      class_names ← lift (method_get metadata "target_names" default_class_names);
      predicted_class ← lift (py_getitem class_names prediction);
      confidence ← lift (ndarray_getitem probabilities prediction);
      names ← lift (py_iter class_names);
      let probs_dict := dict_comprehension (zip names probabilities) in
      mret (predicted_class, confidence, probs_dict)
  end.

Definition predict_batch (features_list : list (list float))
  : M (list (string * float * odict)) :=
  comprehension predict features_list.

Definition get_metadata : M dict_or_none :=
  metadata ← read_metadata;
  mret (if truthy metadata then metadata else Some ∅).

Definition is_loaded : M bool :=
  model ← read_model;
  mret (match model with Some _ => true | None => false end).

End ModelService.

(** ** app/schemas.py *)

Module Schemas.

Record PredictionInput := {
  sepal_length : float;
  sepal_width : float;
  petal_length : float;
  petal_width : float;
}.

(** [Field(..., ge=0, le=10)] *)
Definition in_bounds (x : float) : bool :=
  PrimFloat.leb 0 x && PrimFloat.leb x 10.

Definition valid (i : PredictionInput) : bool :=
  in_bounds (sepal_length i) && in_bounds (sepal_width i)
  && in_bounds (petal_length i) && in_bounds (petal_width i).

Record PredictionOutput := {
  predicted_class : string;
  confidence : float;
  probabilities : odict;
}.

Record BatchPredictionInput := { instances : list PredictionInput }.

Record BatchPredictionOutput := { predictions : list PredictionOutput }.

Record HealthResponse := {
  status : string;
  model_loaded : bool;
  model_info : dict;
}.

End Schemas.

(** ** app/main.py *)

Module Main.
Import Schemas.

(** The startup half of [lifespan]. *)
Definition lifespan : M unit :=
  log INFO [Lit "Starting up application..."];;
  try_except
    (ModelService.load_model;;
     log INFO [Lit "Model loaded successfully during startup"])
    (λ e, log ERROR [Lit ("Failed to load model: " +:+ str e)];; raise e).

Definition health_check : M HealthResponse :=
  metadata ← ModelService.get_metadata;
  healthy ← ModelService.is_loaded;
  loaded ← ModelService.is_loaded;
  accuracy ← lift (method_get metadata "accuracy" (PyStr "unknown"));
  features ← lift (method_get metadata "feature_names" (PyList []));
  classes ← lift (method_get metadata "target_names" (PyList []));
  n_features ← lift (method_get metadata "n_features" (PyInt 0));
  mret {| status := if (healthy : bool) then "healthy" else "unhealthy";
          model_loaded := loaded;
          model_info :=
            {[ "accuracy" := accuracy; "features" := features;
               "classes" := classes; "n_features" := n_features ]} |}.

Definition features_of (i : PredictionInput) : list float :=
  [sepal_length i; sepal_width i; petal_length i; petal_width i].

Definition to_output (r : string * float * odict) : PredictionOutput :=
  {| predicted_class := r.1.1; confidence := r.1.2; probabilities := r.2 |}.

Definition predict (input_data : PredictionInput) : M PredictionOutput :=
  try_except
    (let features := features_of input_data in
     log INFO [Lit "Predicting for features: "; ReprFloats features];;
     r ← ModelService.predict features;
     log INFO [Lit "Prediction: "; Lit r.1.1; Lit " (confidence: "; Fixed4 r.1.2; Lit ")"];;
     mret (to_output r))
    (λ e, log ERROR [Lit ("Prediction error: " +:+ str e)];;
          raise (HTTPException 500 ("Prediction failed: " +:+ str e))).

Definition predict_batch (input_data : BatchPredictionInput) : M BatchPredictionOutput :=
  try_except
    (let features_list := features_of <$> instances input_data in
     log INFO [Lit ("Batch prediction for " +:+ pretty (length features_list) +:+ " instances")];;
     results ← ModelService.predict_batch features_list;
     mret {| predictions := to_output <$> results |})
    (λ e, log ERROR [Lit ("Batch prediction error: " +:+ str e)];;
          raise (HTTPException 500 ("Batch prediction failed: " +:+ str e))).

End Main.

(** ** Sample artifacts

    The metadata record that [train.py] writes for the bundled dataset (with a
    sample accuracy), and three stand-ins for the pickled classifier. *)

Module Samples.

Definition iris_metadata : dict :=
  {[ "feature_names" := PyList ["sepal length (cm)"; "sepal width (cm)";
                                "petal length (cm)"; "petal width (cm)"];
     "target_names" := PyList ["setosa"; "versicolor"; "virginica"];
     "accuracy" := PyFloat 0.9375;
     "n_features" := PyInt 4 ]}.

(** Votes for the first class with the highest probability. *)
Definition setosa_model : Model :=
  {| model_predict := λ _, Return 0;
     model_predict_proba := λ _, Return [0.75; 0.125; 0.125]%float |}.

(** Reports class 0 although class 1 has the larger probability. *)
Definition split_model : Model :=
  {| model_predict := λ _, Return 0;
     model_predict_proba := λ _, Return [0.25; 0.5; 0.25]%float |}.

(** Reports an index for which the metadata has no class name. *)
Definition stray_model : Model :=
  {| model_predict := λ _, Return 3;
     model_predict_proba := λ _, Return [0.25; 0.5; 0.25]%float |}.

(** Rejects every input. *)
Definition failing_model : Model :=
  {| model_predict := λ _, Raise (PyExc (LibraryError "ValueError") "Input contains NaN.");
     model_predict_proba := λ _, Raise (PyExc (LibraryError "ValueError") "Input contains NaN.") |}.

(** Accepts only rows of four features. *)
Definition strict_model : Model :=
  {| model_predict := λ x,
       if decide (length x = 4%nat) then Return 0
       else Raise (PyExc (LibraryError "ValueError") "X has the wrong number of features");
     model_predict_proba := λ x,
       if decide (length x = 4%nat) then Return [0.75; 0.125; 0.125]%float
       else Raise (PyExc (LibraryError "ValueError") "X has the wrong number of features") |}.

Definition trained : FileSystem :=
  {| model_file := Some setosa_model; metadata_file := Some iris_metadata |}.
Definition model_only : FileSystem :=
  {| model_file := Some setosa_model; metadata_file := None |}.
Definition empty_directory : FileSystem :=
  {| model_file := None; metadata_file := None |}.

Definition serving : Self :=
  {| _model := Some setosa_model; _metadata := Some iris_metadata |}.

Definition reference_sample : Schemas.PredictionInput :=
  {| Schemas.sepal_length := 5.1; Schemas.sepal_width := 3.5;
     Schemas.petal_length := 1.4; Schemas.petal_width := 0.2 |}.

End Samples.

(** ** Vocabulary of the statements *)

(** Sequencing of results: the first exception wins. *)
Definition bind_result {A B} (r : result A) (k : A → result B) : result B :=
  match r with
  | Return a => k a
  | Raise e => Raise e
  end.

(** The value of [predict] as a function of the attributes of the singleton
    and the feature list. *)
Definition predict_value (s : Self) (features : list float)
  : result (string * float * odict) :=
  match _model s with
  | None => Raise (PyExc RuntimeError "Model not loaded. Call load_model() first.")
  | Some m =>
      bind_result (model_predict m features) (λ prediction,
      bind_result (model_predict_proba m features) (λ probabilities,
      bind_result (method_get (_metadata s) "target_names"
                     ModelService.default_class_names) (λ class_names,
      bind_result (py_getitem class_names prediction) (λ predicted_class,
      bind_result (ndarray_getitem probabilities prediction) (λ confidence,
      bind_result (py_iter class_names) (λ names,
      Return (predicted_class, confidence,
              dict_comprehension (zip names probabilities))))))))
  end.

(** An outcome with the events [t] in front of its own. *)
Definition after {A} (t : list event) (o : outcome A) : outcome A :=
  {| value := value o; final := final o; trace := t ++ trace o |}.

(** A computation that leaves the attributes of the singleton as they were. *)
Definition read_only {A} (c : M A) : Prop := ∀ fs s, final (c fs s) = s.

(** The outcome of a call that only reports that there is nothing to do. *)
Definition already_loaded (s : Self) : outcome unit :=
  {| value := Return tt; final := s; trace := [Log INFO [Lit "Model already loaded"]] |}.

(** States of the singleton that a sequence of [load_model] calls can produce
    from the class-level defaults, against any file systems. *)
Inductive reachable : Self → Prop :=
  | reachable_unloaded : reachable unloaded
  | reachable_load fs s : reachable s → reachable (final (ModelService.load_model fs s)).

(** [x] is at least every element of [xs]. *)
Definition highest (x : float) (xs : list float) : bool :=
  forallb (λ p, PrimFloat.leb p x) xs.

(** The index [i] selects a largest element of [xs]. *)
Definition is_argmax (i : Z) (xs : list float) : bool :=
  match py_index xs i with
  | Some x => highest x xs
  | None => false
  end.

(** A probability: a float in [0, 1]. *)
Definition in_unit (x : float) : bool :=
  PrimFloat.leb 0 x && PrimFloat.leb x 1.

(** [x] is 1.0 up to the tolerance [tol]. *)
Definition close_to_one (tol x : float) : bool :=
  PrimFloat.leb (PrimFloat.abs (PrimFloat.sub x 1)) tol.

(** [probs] is a probability distribution over the pairwise distinct
    [classes]: one probability per class, summing to 1.0 within [tol]. *)
Definition distribution_over (tol : float) (classes : list string)
    (probs : list float) : Prop :=
  NoDup classes
  ∧ length probs = length classes
  ∧ forallb in_unit probs = true
  ∧ close_to_one tol (fsum probs) = true.

(** The response [health_check] builds from the attributes of the singleton. *)
Definition health_of (s : Self) : Schemas.HealthResponse :=
  let metadata := default ∅ (_metadata s) in
  {| Schemas.status := if present (_model s) then "healthy" else "unhealthy";
     Schemas.model_loaded := present (_model s);
     Schemas.model_info :=
       {[ "accuracy" := dict_get metadata "accuracy" (PyStr "unknown");
          "features" := dict_get metadata "feature_names" (PyList []);
          "classes" := dict_get metadata "target_names" (PyList []);
          "n_features" := dict_get metadata "n_features" (PyInt 0) ]} |}.

(** A computation none of whose events is a file-system access. *)
Definition offline {A} (c : M A) : Prop :=
  ∀ fs s, forallb (λ ev, negb (is_file_access ev)) (trace (c fs s)) = true.

(** The log line that ends the startup half of [lifespan]. *)
Definition startup_report (r : result unit) : event :=
  match r with
  | Return _ => Log INFO [Lit "Model loaded successfully during startup"]
  | Raise e => Log ERROR [Lit ("Failed to load model: " +:+ str e)]
  end.

(** ** The singleton constructor

    Class-level state of [ModelService]: the [_instance] attribute and the
    number of objects [object.__new__] has allocated so far; an object is
    named by its allocation number. *)

Module Singleton.

Record Class := {
  _instance : option nat;
  allocated : nat;
}.

(** The class as the [class] statement leaves it. *)
Definition declared : Class := {| _instance := None; allocated := 0 |}.

(** [super(ModelService, cls).__new__(cls)] *)
Definition object_new (cls : Class) : nat * Class :=
  (allocated cls, {| _instance := _instance cls; allocated := S (allocated cls) |}).

(** [ModelService.__new__(cls)] *)
Definition __new__ (cls : Class) : nat * Class :=
  match _instance cls with
  | None =>
      let (obj, cls') := object_new cls in
      (obj, {| _instance := Some obj; allocated := allocated cls' |})
  | Some obj => (obj, cls)
  end.

(** [n] constructor calls in a row: the objects they return and the class
    state afterwards. *)
Fixpoint construct (n : nat) (cls : Class) : list nat * Class :=
  match n with
  | O => ([], cls)
  | S n' =>
      let (obj, cls') := __new__ cls in
      let (objs, cls'') := construct n' cls' in
      (obj :: objs, cls'')
  end.

End Singleton.

(** * Properties *)

(** ** Sequences and dictionaries *)

Lemma py_index_elem_of {A} (l : list A) (i : Z) (x : A) :
  py_index l i = Some x → x ∈ l.
Proof.
  unfold py_index. intros H.
  repeat case_match; try discriminate; eapply list_elem_of_lookup_2; exact H.
Qed.

Lemma py_index_nonneg {A} (l : list A) (i : Z) :
  0 ≤ i < Z.of_nat (length l) → py_index l i = l !! Z.to_nat i ∧ is_Some (py_index l i).
Proof.
  intros [H0 Hlt]. unfold py_index.
  destruct (Z.leb_spec 0 i) as [_|]; [|lia].
  split; [reflexivity|]. apply lookup_lt_is_Some. lia.
Qed.

Lemma py_index_is_Some {A} (l : list A) (i : Z) :
  is_Some (py_index l i) ↔ - Z.of_nat (length l) ≤ i < Z.of_nat (length l).
Proof.
  unfold py_index.
  destruct (Z.leb_spec 0 i) as [H0|H0].
  - rewrite lookup_lt_is_Some. lia.
  - destruct (Z.leb_spec (- Z.of_nat (length l)) i) as [H1|H1].
    + rewrite lookup_lt_is_Some. lia.
    + split; [intros [? ?]; discriminate | lia].
Qed.

Lemma dict_setitem_fresh (d : odict) (k : string) (v : float) :
  k ∉ keys d → dict_setitem d k v = d ++ [(k, v)].
Proof.
  unfold keys. induction d as [|[k' v'] d IH]; simpl; intros Hk; [reflexivity|].
  rewrite not_elem_of_cons in Hk. destruct Hk as [Hne Hk].
  destruct (decide (k' = k)) as [->|_]; [contradiction|].
  by rewrite IH.
Qed.

Lemma fold_setitem_distinct (kvs acc : odict) :
  NoDup (keys (acc ++ kvs)) →
  fold_left (λ d kv, dict_setitem d kv.1 kv.2) kvs acc = acc ++ kvs.
Proof.
  revert acc. induction kvs as [|[k v] kvs IH]; intros acc Hnd; simpl.
  - by rewrite app_nil_r.
  - assert (Hfresh : k ∉ keys acc).
    { unfold keys in *. rewrite fmap_app in Hnd. simpl in Hnd.
      apply NoDup_app in Hnd as (_ & Hdisj & _).
      intros Hin. apply (Hdisj _ Hin). left. }
    rewrite (dict_setitem_fresh _ _ _ Hfresh).
    rewrite IH; rewrite <- app_assoc; [reflexivity | exact Hnd].
Qed.

(** With pairwise distinct keys the comprehension stores every pair, in order. *)
Lemma dict_comprehension_distinct (kvs : list (string * float)) :
  NoDup (keys kvs) → dict_comprehension kvs = kvs.
Proof. intros Hnd. unfold dict_comprehension. by rewrite fold_setitem_distinct. Qed.

Lemma keys_setitem (d : odict) (k : string) (v : float) (x : string) :
  x ∈ keys (dict_setitem d k v) ↔ x = k ∨ x ∈ keys d.
Proof.
  unfold keys. induction d as [|[k' v'] d IH]; simpl.
  - set_solver.
  - destruct (decide (k' = k)) as [->|Hne]; simpl; [set_solver|].
    rewrite !elem_of_cons, IH. tauto.
Qed.

(** Whatever the keys are, the comprehension has an entry for each of them. *)
Lemma keys_dict_comprehension (kvs : list (string * float)) (x : string) :
  x ∈ keys (dict_comprehension kvs) ↔ x ∈ keys kvs.
Proof.
  unfold dict_comprehension.
  enough (∀ acc, x ∈ keys (fold_left (λ d kv, dict_setitem d kv.1 kv.2) kvs acc)
                 ↔ x ∈ keys acc ∨ x ∈ keys kvs) as H.
  { rewrite H. unfold keys. set_solver. }
  induction kvs as [|[k v] kvs IH]; intros acc; simpl.
  - unfold keys. set_solver.
  - rewrite IH, keys_setitem. unfold keys. simpl. set_solver.
Qed.

Lemma truthy_or_empty (o : dict_or_none) :
  (if truthy o then o else Some ∅) = Some (default ∅ o).
Proof.
  destruct o as [d|]; simpl; [|reflexivity].
  destruct (map_to_list d) eqn:E; [|reflexivity].
  apply map_to_list_empty_iff in E. by subst.
Qed.

(** ** Running computations *)

Ltac unfold_monad :=
  unfold mbind, mret, M_bind, M_ret, bind, ret, raise, lift, try_except, log,
    read_model, read_metadata, write_model, write_metadata, path_exists,
    joblib_load_model, joblib_load_metadata in *.

(** Case analysis on every scrutinee left once the monad is unfolded. *)
Ltac run_cases :=
  repeat (simpl in *;
          match goal with
          | |- context [match ?x with _ => _ end] => destruct x eqn:?
          end);
  simpl in *.

(** The same, with the calls into Python and the classifier kept as calls. *)
Ltac run_calls :=
  repeat (cbn -[method_get py_getitem ndarray_getitem py_iter dict_comprehension zip];
          match goal with
          | |- context [match ?x with _ => _ end] => destruct x eqn:?
          end);
  cbn -[method_get py_getitem ndarray_getitem py_iter dict_comprehension zip].

Lemma bind_value_Return {A B} (c : M A) (k : A → M B) fs s a :
  value (c fs s) = Return a →
  value ((c ≫= k) fs s) = value (k a fs (final (c fs s))).
Proof. unfold_monad. intros ->. reflexivity. Qed.

Lemma bind_value_Raise {A B} (c : M A) (k : A → M B) fs s e :
  value (c fs s) = Raise e → value ((c ≫= k) fs s) = Raise e.
Proof. unfold_monad. intros ->. reflexivity. Qed.

(** One step of a computation at a time. *)

Lemma after_nil {A} (o : outcome A) : after [] o = o.
Proof. by destruct o. Qed.

Lemma bind_run_Return {A B} (c : M A) (k : A → M B) fs s a s' t :
  c fs s = {| value := Return a; final := s'; trace := t |} →
  (c ≫= k) fs s = after t (k a fs s').
Proof. intros Hc. unfold mbind, M_bind, bind. rewrite Hc. reflexivity. Qed.

Lemma bind_run_Raise {A B} (c : M A) (k : A → M B) fs s e s' t :
  c fs s = {| value := Raise e; final := s'; trace := t |} →
  (c ≫= k) fs s = {| value := Raise e; final := s'; trace := t |}.
Proof. intros Hc. unfold mbind, M_bind, bind. rewrite Hc. reflexivity. Qed.

Lemma bind_ret {A B} (a : A) (k : A → M B) fs s : (mret a ≫= k) fs s = k a fs s.
Proof. rewrite (bind_run_Return _ _ fs s a s []) by reflexivity. apply after_nil. Qed.

Lemma bind_lift {A B} (r : result A) (k : A → M B) fs s :
  (lift r ≫= k) fs s
  = match r with
    | Return a => k a fs s
    | Raise e => {| value := Raise e; final := s; trace := [] |}
    end.
Proof.
  destruct r as [a|e].
  - rewrite (bind_run_Return _ _ fs s a s []) by reflexivity. apply after_nil.
  - by apply bind_run_Raise.
Qed.

Lemma bind_lift_Return {A B} (r : result A) (k : A → M B) fs s a :
  r = Return a → (lift r ≫= k) fs s = k a fs s.
Proof.
  intros ->. rewrite (bind_run_Return _ _ fs s a s []) by reflexivity.
  apply after_nil.
Qed.

Lemma bind_lift_Raise {A B} (r : result A) (k : A → M B) fs s e :
  r = Raise e → (lift r ≫= k) fs s = {| value := Raise e; final := s; trace := [] |}.
Proof. intros ->. by apply bind_run_Raise. Qed.

Lemma bind_read_model {B} (k : option Model → M B) fs s :
  (read_model ≫= k) fs s = k (_model s) fs s.
Proof.
  rewrite (bind_run_Return _ _ fs s (_model s) s []) by reflexivity.
  apply after_nil.
Qed.

Lemma bind_read_metadata {B} (k : dict_or_none → M B) fs s :
  (read_metadata ≫= k) fs s = k (_metadata s) fs s.
Proof.
  rewrite (bind_run_Return _ _ fs s (_metadata s) s []) by reflexivity.
  apply after_nil.
Qed.

Lemma bind_log {B} lv msg (k : unit → M B) fs s :
  (log lv msg ≫= k) fs s = after [Log lv msg] (k tt fs s).
Proof. by apply bind_run_Return. Qed.

Lemma bind_path_exists {B} p (k : bool → M B) fs s :
  (path_exists p ≫= k) fs s = after [PathExists p] (k (path_present fs p) fs s).
Proof. by apply bind_run_Return. Qed.

Lemma bind_write_model {B} m (k : unit → M B) fs s :
  (write_model m ≫= k) fs s
  = k tt fs {| _model := Some m; _metadata := _metadata s |}.
Proof.
  rewrite (bind_run_Return _ _ fs s tt
             {| _model := Some m; _metadata := _metadata s |} []) by reflexivity.
  apply after_nil.
Qed.

Lemma bind_write_metadata {B} d (k : unit → M B) fs s :
  (write_metadata d ≫= k) fs s
  = k tt fs {| _model := _model s; _metadata := Some d |}.
Proof.
  rewrite (bind_run_Return _ _ fs s tt
             {| _model := _model s; _metadata := Some d |} []) by reflexivity.
  apply after_nil.
Qed.

Lemma bind_joblib_load_model {B} (k : Model → M B) fs s m :
  model_file fs = Some m →
  (joblib_load_model ≫= k) fs s = after [JoblibLoad model_path] (k m fs s).
Proof.
  intros Hfs. apply bind_run_Return. unfold joblib_load_model. by rewrite Hfs.
Qed.

Lemma bind_joblib_load_metadata {B} (k : dict → M B) fs s d :
  metadata_file fs = Some d →
  (joblib_load_metadata ≫= k) fs s = after [JoblibLoad metadata_path] (k d fs s).
Proof.
  intros Hfs. apply bind_run_Return. unfold joblib_load_metadata. by rewrite Hfs.
Qed.

Lemma bind_assoc {A B C} (c : M A) (k : A → M B) (k' : B → M C) fs s :
  ((c ≫= k) ≫= k') fs s = (c ≫= (λ a, k a ≫= k')) fs s.
Proof.
  unfold mbind, M_bind, bind.
  destruct (c fs s) as [[a|e] s1 t1]; cbn [value final trace]; [|reflexivity].
  destruct (k a fs s1) as [[b|e] s2 t2]; cbn [value final trace]; [|reflexivity].
  destruct (k' b fs s2) as [[x|e] s3 t3]; cbn [value final trace];
    by rewrite app_assoc.
Qed.

Lemma read_only_bind {A B} (c : M A) (k : A → M B) :
  read_only c → (∀ a, read_only (k a)) → read_only (c ≫= k).
Proof.
  intros Hc Hk fs s. unfold_monad.
  destruct (value (c fs s)); simpl; [rewrite Hk|]; apply Hc.
Qed.

Lemma read_only_try_except {A} (c : M A) (h : exception → M A) :
  read_only c → (∀ e, read_only (h e)) → read_only (try_except c h).
Proof.
  intros Hc Hh fs s. unfold try_except.
  destruct (value (c fs s)); simpl; [|rewrite Hh]; apply Hc.
Qed.

Lemma read_only_ret {A} (a : A) : read_only (mret a).
Proof. by intros fs s. Qed.
Lemma read_only_lift {A} (r : result A) : read_only (lift r).
Proof. by intros fs s. Qed.
Lemma read_only_raise {A} (e : exception) : read_only (@raise A e).
Proof. by intros fs s. Qed.
Lemma read_only_log lv msg : read_only (log lv msg).
Proof. by intros fs s. Qed.
Lemma read_only_read_model : read_only read_model.
Proof. by intros fs s. Qed.
Lemma read_only_read_metadata : read_only read_metadata.
Proof. by intros fs s. Qed.

Create HintDb frame discriminated.
#[local] Hint Resolve read_only_ret read_only_lift read_only_raise read_only_log
  read_only_read_model read_only_read_metadata : frame.

Ltac frame :=
  repeat first
    [ apply read_only_bind; [|intros ?]
    | apply read_only_try_except; [|intros ?]
    | solve [auto with frame]
    | match goal with |- read_only (match ?x with _ => _ end) => destruct x end
    | match goal with |- read_only (if ?x then _ else _) => destruct x end ].

Lemma read_only_comprehension {A B} (f : A → M B) (xs : list A) :
  (∀ x, read_only (f x)) → read_only (comprehension f xs).
Proof. intros Hf. induction xs; simpl; frame. Qed.

(** [predict] only computes: it returns [predict_value], writes nothing and
    has no event. *)
Lemma predict_outcome features fs s :
  ModelService.predict features fs s
  = {| value := predict_value s features; final := s; trace := [] |}.
Proof.
  unfold ModelService.predict, predict_value.
  rewrite bind_read_model. destruct (_model s) as [m|]; [|reflexivity].
  rewrite bind_lift.
  destruct (model_predict m features) as [prediction|]; [|reflexivity].
  rewrite bind_lift.
  destruct (model_predict_proba m features) as [probabilities|]; [|reflexivity].
  rewrite bind_read_metadata, bind_lift. cbn [bind_result].
  destruct (method_get _ _ _) as [class_names|]; [|reflexivity].
  rewrite bind_lift. cbn [bind_result].
  destruct (py_getitem _ _) as [predicted_class|]; [|reflexivity].
  rewrite bind_lift. cbn [bind_result].
  destruct (ndarray_getitem _ _) as [confidence|]; [|reflexivity].
  rewrite bind_lift. cbn [bind_result].
  destruct (py_iter _) as [names|]; reflexivity.
Qed.

Lemma predict_read_only features : read_only (ModelService.predict features).
Proof. intros fs s. by rewrite predict_outcome. Qed.

Lemma predict_batch_read_only features_list :
  read_only (ModelService.predict_batch features_list).
Proof. apply read_only_comprehension, predict_read_only. Qed.

Lemma get_metadata_read_only : read_only ModelService.get_metadata.
Proof. unfold ModelService.get_metadata. frame. Qed.

Lemma is_loaded_read_only : read_only ModelService.is_loaded.
Proof. unfold ModelService.is_loaded. frame. Qed.

#[local] Hint Resolve predict_read_only predict_batch_read_only
  get_metadata_read_only is_loaded_read_only : frame.

Lemma health_check_read_only : read_only Main.health_check.
Proof. unfold Main.health_check. frame. Qed.

Lemma predict_handler_read_only input_data : read_only (Main.predict input_data).
Proof. unfold Main.predict. frame. Qed.

Lemma predict_batch_handler_read_only input_data :
  read_only (Main.predict_batch input_data).
Proof. unfold Main.predict_batch. frame. Qed.

(** [predict] on a singleton neither logs nor touches the file system. *)
Lemma predict_silent features fs s : trace (ModelService.predict features fs s) = [].
Proof. by rewrite predict_outcome. Qed.

(** [predict] does not look at the file system. *)
Lemma predict_fs_irrelevant features fs fs' s :
  ModelService.predict features fs s = ModelService.predict features fs' s.
Proof. by rewrite !predict_outcome. Qed.

(** ** Loading *)

Lemma path_present_model fs :
  path_present fs model_path = present (model_file fs).
Proof. unfold path_present. by rewrite decide_True. Qed.

Lemma path_present_metadata fs :
  path_present fs metadata_path = present (metadata_file fs).
Proof.
  unfold path_present. rewrite decide_False by discriminate. by rewrite decide_True.
Qed.

Lemma load_model_loaded fs s :
  is_Some (_model s) → ModelService.load_model fs s = already_loaded s.
Proof.
  intros [m Hm]. unfold ModelService.load_model.
  rewrite bind_read_model, Hm. reflexivity.
Qed.

Lemma load_model_missing fs s :
  _model s = None → model_file fs = None →
  ModelService.load_model fs s =
    {| value := Raise (PyExc FileNotFoundError
                         "Model file not found at model/iris_model.joblib");
       final := s;
       trace := [PathExists model_path] |}.
Proof.
  intros Hs Hfs. unfold ModelService.load_model.
  rewrite bind_read_model, Hs, bind_path_exists, path_present_model, Hfs.
  reflexivity.
Qed.

Lemma load_model_fresh fs s m :
  _model s = None → model_file fs = Some m →
  ModelService.load_model fs s =
    {| value := Return tt;
       final := {| _model := Some m; _metadata := Some (default ∅ (metadata_file fs)) |};
       trace :=
         [PathExists model_path;
          Log INFO [Lit "Loading model from model/iris_model.joblib"];
          JoblibLoad model_path;
          PathExists metadata_path]
         ++ match metadata_file fs with
            | Some d => [JoblibLoad metadata_path; Log INFO [Lit "Loaded metadata: "; ReprDict d]]
            | None => [Log WARNING [Lit "Metadata file not found"]]
            end
         ++ [Log INFO [Lit "Model loaded successfully"]] |}.
Proof.
  intros Hs Hfs. unfold ModelService.load_model.
  rewrite bind_read_model, Hs, bind_path_exists, path_present_model, Hfs.
  cbn [present negb].
  rewrite bind_log, (bind_joblib_load_model _ fs s m Hfs), bind_write_model,
    bind_path_exists, path_present_metadata.
  destruct (metadata_file fs) as [d|] eqn:Hmd; cbn [present];
    rewrite !bind_assoc.
  - rewrite (bind_joblib_load_metadata _ fs _ d Hmd). cbv beta.
    rewrite !bind_assoc, bind_write_metadata. cbv beta.
    rewrite bind_log. reflexivity.
  - rewrite bind_log. cbv beta. rewrite bind_write_metadata. reflexivity.
Qed.

(** Whenever [load_model] returns, the singleton holds a model. *)
Lemma load_model_returns_loaded fs s :
  value (ModelService.load_model fs s) = Return tt →
  is_Some (_model (final (ModelService.load_model fs s))).
Proof.
  destruct (_model s) as [m|] eqn:Hs.
  - rewrite load_model_loaded by (rewrite Hs; eauto). simpl. rewrite Hs. eauto.
  - destruct (model_file fs) as [m|] eqn:Hfs.
    + rewrite (load_model_fresh fs s m Hs Hfs). simpl. eauto.
    + rewrite (load_model_missing fs s Hs Hfs). discriminate.
Qed.

(** A loaded model always comes with a metadata mapping. *)
Lemma reachable_metadata s :
  reachable s → is_Some (_model s) → is_Some (_metadata s).
Proof.
  induction 1 as [|fs s Hr IH].
  - intros [? ?]; discriminate.
  - destruct (_model s) as [m|] eqn:Hs.
    + rewrite load_model_loaded by (rewrite Hs; eauto). simpl.
      intros _. apply IH. eauto.
    + destruct (model_file fs) as [m|] eqn:Hfs.
      * rewrite (load_model_fresh fs s m Hs Hfs). simpl. eauto.
      * rewrite (load_model_missing fs s Hs Hfs). simpl. rewrite ?Hs.
        intros [? ?]; discriminate.
Qed.

(** C4: [load_model] is idempotent.  In a state where the model is loaded the
    call is a no-op: it returns without error, its only event is the log line
    "Model already loaded" (no file access), and the attributes are unchanged.
    Hence a second call after any first call leaves the state the first call
    produced, and after a first call that returned it is such a no-op,
    whatever the artifact files hold by then. *)
Theorem load_model_idempotent (fs fs' : FileSystem) (s : Self) :
  (is_Some (_model s) →
     ModelService.load_model fs s = already_loaded s
     ∧ forallb (λ ev, negb (is_file_access ev)) (trace (ModelService.load_model fs s)) = true)
  ∧ (let once := ModelService.load_model fs s in
     final (ModelService.load_model fs (final once)) = final once
     ∧ (value once = Return tt →
          ModelService.load_model fs' (final once) = already_loaded (final once))).
Proof.
  split.
  - intros Hs. rewrite load_model_loaded by done. done.
  - cbv zeta. split.
    + destruct (_model s) as [m|] eqn:Hs.
      * assert (Hnoop : ModelService.load_model fs s = already_loaded s)
          by (apply load_model_loaded; rewrite Hs; eauto).
        rewrite Hnoop. cbn [final already_loaded]. by rewrite Hnoop.
      * destruct (model_file fs) as [m|] eqn:Hfs.
        -- rewrite (load_model_fresh fs s m Hs Hfs). cbn [final].
           rewrite load_model_loaded; cbn [_model]; eauto.
        -- rewrite (load_model_missing fs s Hs Hfs). cbn [final].
           by rewrite (load_model_missing fs s Hs Hfs).
    + intros Hret. apply load_model_loaded. by apply load_model_returns_loaded.
Qed.

Lemma load_model_idempotent_witness :
  ModelService.load_model Samples.empty_directory Samples.serving
  = already_loaded Samples.serving
  ∧ ModelService.load_model Samples.empty_directory
      (final (ModelService.load_model Samples.trained unloaded))
    = already_loaded (final (ModelService.load_model Samples.trained unloaded)).
Proof.
  split.
  - apply (load_model_idempotent Samples.empty_directory Samples.empty_directory
             Samples.serving).
    simpl. eauto.
  - apply (load_model_idempotent Samples.trained Samples.empty_directory unloaded).
    reflexivity.
Defined.

(** C5: with the model not yet loaded, [load_model] raises [FileNotFoundError]
    exactly when the model artifact is absent, and then leaves the attributes
    unchanged.  A missing metadata artifact is not an error: the call logs the
    warning, stores the empty mapping as metadata and returns. *)
Theorem load_model_artifacts (fs : FileSystem) (s : Self) :
  _model s = None →
  let o := ModelService.load_model fs s in
  ((∃ msg, value o = Raise (PyExc FileNotFoundError msg)) ↔ model_file fs = None)
  ∧ (model_file fs = None → final o = s ∧ _model (final o) = None)
  ∧ (∀ m, model_file fs = Some m → metadata_file fs = None →
       value o = Return tt
       ∧ final o = {| _model := Some m; _metadata := Some ∅ |}
       ∧ Log WARNING [Lit "Metadata file not found"] ∈ trace o).
Proof.
  intros Hs. cbv zeta. destruct (model_file fs) as [m|] eqn:Hfs.
  - rewrite (load_model_fresh fs s m Hs Hfs). simpl. split_and!.
    + split; [intros [? ?]; discriminate | discriminate].
    + discriminate.
    + intros ? [= <-] ->. simpl. split_and!; [done..|]. set_solver.
  - rewrite (load_model_missing fs s Hs Hfs). simpl. split_and!.
    + split; eauto.
    + done.
    + discriminate.
Qed.

Lemma load_model_artifacts_witness :
  value (ModelService.load_model Samples.model_only unloaded) = Return tt
  ∧ final (ModelService.load_model Samples.model_only unloaded)
    = {| _model := Some Samples.setosa_model; _metadata := Some ∅ |}
  ∧ Log WARNING [Lit "Metadata file not found"]
    ∈ trace (ModelService.load_model Samples.model_only unloaded).
Proof.
  apply (load_model_artifacts Samples.model_only unloaded); reflexivity.
Defined.

(** C6: whatever the input, [predict] on a singleton whose model is not loaded
    raises the [RuntimeError] and changes nothing. *)
Theorem predict_before_load (fs : FileSystem) (s : Self) (features : list float) :
  _model s = None →
  ModelService.predict features fs s =
    {| value := Raise (PyExc RuntimeError "Model not loaded. Call load_model() first.");
       final := s;
       trace := [] |}.
Proof.
  intros Hs. unfold ModelService.predict. rewrite bind_read_model, Hs. reflexivity.
Qed.

Lemma predict_before_load_witness :
  value (ModelService.predict (Main.features_of Samples.reference_sample)
           Samples.trained unloaded)
  = Raise (PyExc RuntimeError "Model not loaded. Call load_model() first.").
Proof.
  rewrite (predict_before_load Samples.trained unloaded
             (Main.features_of Samples.reference_sample)); reflexivity.
Defined.

(** ** Accessors and the health endpoint *)

Lemma get_metadata_run fs s :
  ModelService.get_metadata fs s =
    {| value := Return (Some (default ∅ (_metadata s))); final := s; trace := [] |}.
Proof.
  unfold ModelService.get_metadata. unfold_monad. cbn.
  by rewrite truthy_or_empty.
Qed.

Lemma is_loaded_run fs s :
  ModelService.is_loaded fs s =
    {| value := Return (present (_model s)); final := s; trace := [] |}.
Proof. unfold ModelService.is_loaded. unfold_monad. cbn. by destruct (_model s). Qed.

Lemma health_check_run fs s :
  Main.health_check fs s = {| value := Return (health_of s); final := s; trace := [] |}.
Proof.
  unfold Main.health_check.
  rewrite (bind_run_Return _ _ fs s _ s [] (get_metadata_run fs s)), after_nil.
  rewrite (bind_run_Return _ _ fs s _ s [] (is_loaded_run fs s)), after_nil.
  rewrite (bind_run_Return _ _ fs s _ s [] (is_loaded_run fs s)), after_nil.
  rewrite !bind_lift. reflexivity.
Qed.

Lemma model_info_features s :
  Schemas.model_info (health_of s) !! "features"
  = Some (dict_get (default ∅ (_metadata s)) "feature_names" (PyList [])).
Proof. reflexivity. Qed.

Lemma model_info_classes s :
  Schemas.model_info (health_of s) !! "classes"
  = Some (dict_get (default ∅ (_metadata s)) "target_names" (PyList [])).
Proof. reflexivity. Qed.

(** C10: [get_metadata] always returns, and what it returns is a mapping,
    never [None]: the stored metadata, or the empty mapping when the attribute
    is still [None] (before any load) or empty.  [health_check], which calls
    [.get] on the result, therefore returns a response in every state, the
    unloaded one included. *)
Theorem get_metadata_never_none (fs : FileSystem) (s : Self) :
  ModelService.get_metadata fs s =
    {| value := Return (Some (default ∅ (_metadata s))); final := s; trace := [] |}
  ∧ value (ModelService.get_metadata fs unloaded) = Return (Some ∅)
  ∧ (∃ resp, value (Main.health_check fs s) = Return resp)
  ∧ (∃ resp, value (Main.health_check fs unloaded) = Return resp).
Proof.
  split_and!.
  - apply get_metadata_run.
  - by rewrite get_metadata_run.
  - rewrite health_check_run. eauto.
  - rewrite health_check_run. eauto.
Qed.

(** C7, as it was stated, fails: with the model artifact present and the
    metadata artifact absent, [load_model] returns, the health response says
    loaded and healthy, and its feature and class lists are both empty. *)
Lemma health_check_lists_empty_without_metadata :
  let o := ModelService.load_model Samples.model_only unloaded in
  value o = Return tt
  ∧ ∃ resp, value (Main.health_check Samples.model_only (final o)) = Return resp
      ∧ Schemas.model_loaded resp = true
      ∧ Schemas.status resp = "healthy"
      ∧ Schemas.model_info resp !! "features" = Some (PyList [])
      ∧ Schemas.model_info resp !! "classes" = Some (PyList []).
Proof.
  cbv zeta. split; [reflexivity|].
  rewrite health_check_run. eexists. split; [reflexivity|].
  split_and!; reflexivity.
Qed.

(** C7, amended: [health_check] always answers and reports the load state
    truthfully.  With no model loaded it says [model_loaded = false] and
    "unhealthy".  In a state that a returning [load_model] produced it says
    [model_loaded = true] and "healthy", and the feature and class lists of
    [model_info] are the metadata's [feature_names] and [target_names], each
    the empty list when the metadata has no such entry (in particular when the
    metadata artifact was absent). *)
Theorem health_check_reports_load_state (fs : FileSystem) (s : Self) :
  ∃ resp,
    Main.health_check fs s = {| value := Return resp; final := s; trace := [] |}
    ∧ (_model s = None →
         Schemas.model_loaded resp = false ∧ Schemas.status resp = "unhealthy")
    ∧ (∀ fs0 s0,
         value (ModelService.load_model fs0 s0) = Return tt →
         s = final (ModelService.load_model fs0 s0) →
         Schemas.model_loaded resp = true
         ∧ Schemas.status resp = "healthy"
         ∧ Schemas.model_info resp !! "features"
           = Some (dict_get (default ∅ (_metadata s)) "feature_names" (PyList []))
         ∧ Schemas.model_info resp !! "classes"
           = Some (dict_get (default ∅ (_metadata s)) "target_names" (PyList []))
         ∧ (_model s0 = None → _metadata s = Some (default ∅ (metadata_file fs0)))).
Proof.
  exists (health_of s). split; [apply health_check_run|]. split.
  - intros Hs. unfold health_of. cbn. by rewrite Hs.
  - intros fs0 s0 Hret ->.
    pose proof (load_model_returns_loaded fs0 s0 Hret) as [m Hm].
    unfold health_of. cbn [Schemas.model_loaded Schemas.status].
    rewrite Hm. cbn [present].
    split_and!; try reflexivity.
    intros Hs0. destruct (model_file fs0) as [m'|] eqn:Hfs.
    + by rewrite (load_model_fresh fs0 s0 m' Hs0 Hfs).
    + rewrite (load_model_missing fs0 s0 Hs0 Hfs) in Hret. discriminate.
Qed.

Lemma health_check_reports_load_state_witness :
  ∃ resp,
    value (Main.health_check Samples.trained
             (final (ModelService.load_model Samples.trained unloaded))) = Return resp
    ∧ Schemas.model_loaded resp = true
    ∧ Schemas.status resp = "healthy"
    ∧ Schemas.model_info resp !! "classes"
      = Some (PyList ["setosa"; "versicolor"; "virginica"]).
Proof.
  destruct (health_check_reports_load_state Samples.trained
              (final (ModelService.load_model Samples.trained unloaded)))
    as (resp & Hrun & _ & Hloaded).
  destruct (Hloaded Samples.trained unloaded eq_refl eq_refl)
    as (Hl & Hst & _ & Hcl & _).
  exists resp. rewrite Hrun. split_and!; [reflexivity | exact Hl | exact Hst |].
  rewrite Hcl. reflexivity.
Defined.

(** ** The predict endpoint *)


(** ** Nothing on the serving path writes to the singleton *)

(** C9: in a state that a returning [load_model] produced, [predict],
    [predict_batch], [get_metadata], [is_loaded], the health endpoint and the
    two prediction handlers all leave [_model] and [_metadata] as they were,
    whether they return or raise. *)
Theorem serving_path_read_only (fs0 : FileSystem) (s0 : Self) :
  value (ModelService.load_model fs0 s0) = Return tt →
  let s := final (ModelService.load_model fs0 s0) in
  ∀ fs features features_list input_data batch,
    final (ModelService.predict features fs s) = s
    ∧ final (ModelService.predict_batch features_list fs s) = s
    ∧ final (ModelService.get_metadata fs s) = s
    ∧ final (ModelService.is_loaded fs s) = s
    ∧ final (Main.health_check fs s) = s
    ∧ final (Main.predict input_data fs s) = s
    ∧ final (Main.predict_batch batch fs s) = s.
Proof.
  intros _ s fs features features_list input_data batch. split_and!.
  - apply predict_read_only.
  - apply predict_batch_read_only.
  - apply get_metadata_read_only.
  - apply is_loaded_read_only.
  - apply health_check_read_only.
  - apply predict_handler_read_only.
  - apply predict_batch_handler_read_only.
Qed.

Lemma serving_path_read_only_witness :
  final (ModelService.predict (Main.features_of Samples.reference_sample) Samples.trained
           (final (ModelService.load_model Samples.trained unloaded)))
  = final (ModelService.load_model Samples.trained unloaded).
Proof.
  apply (serving_path_read_only Samples.trained unloaded eq_refl Samples.trained
           (Main.features_of Samples.reference_sample) []
           Samples.reference_sample {| Schemas.instances := [] |}).
Defined.

(** ** Batches *)

Lemma comprehension_sequential {A B} (f : A → M B) (xs : list A) fs s :
  (∀ x, read_only (f x)) →
  match value (comprehension f xs fs s) with
  | Return ys => Forall2 (λ x y, value (f x fs s) = Return y) xs ys
  | Raise e =>
      ∃ before x after,
        xs = before ++ x :: after
        ∧ Forall (λ x', returns (value (f x' fs s)) = true) before
        ∧ value (f x fs s) = Raise e
  end.
Proof.
  intros Hf. induction xs as [|x xs IH].
  - constructor.
  - cbn [comprehension]. unfold mbind, M_bind, bind at 1.
    destruct (value (f x fs s)) as [y|e] eqn:Hx; cbn [value].
    + rewrite Hf. unfold bind at 1.
      destruct (value (comprehension f xs fs s)) as [ys|e] eqn:Hxs; cbn [value].
      * unfold mret, M_ret, ret. cbn. by constructor.
      * destruct IH as (before & x' & after & -> & Hbefore & Hx').
        exists (x :: before), x', after. split_and!; [done| |done].
        constructor; [by rewrite Hx|done].
    + exists [], x, xs. split_and!; [done|constructor|done].
Qed.

(** C3: [predict_batch] is the sequential map of [predict].  When it returns,
    it returns one result per feature vector, in the order of the input, and
    each is what [predict] returns on that vector alone from the same state.
    When [predict] raises on some vector the whole call raises (the exception
    of the first such vector) and no result list is produced. *)
Theorem predict_batch_sequential_map (fs : FileSystem) (s : Self)
    (features_list : list (list float)) :
  match value (ModelService.predict_batch features_list fs s) with
  | Return results =>
      length results = length features_list
      ∧ Forall2 (λ features r, value (ModelService.predict features fs s) = Return r)
          features_list results
  | Raise e =>
      ∃ before features after,
        features_list = before ++ features :: after
        ∧ Forall (λ x, returns (value (ModelService.predict x fs s)) = true) before
        ∧ value (ModelService.predict features fs s) = Raise e
  end
  ∧ (∀ features,
       features ∈ features_list →
       returns (value (ModelService.predict features fs s)) = false →
       returns (value (ModelService.predict_batch features_list fs s)) = false).
Proof.
  pose proof (comprehension_sequential ModelService.predict features_list fs s
                predict_read_only) as H.
  unfold ModelService.predict_batch.
  destruct (value (comprehension ModelService.predict features_list fs s))
    as [results|e].
  - split; [split; [symmetry; by eapply Forall2_length | exact H]|].
    intros features Hin Hfail.
    apply list_elem_of_lookup in Hin as [i Hi].
    destruct (Forall2_lookup_l _ _ _ _ _ H Hi) as (r & _ & Hr).
    rewrite Hr in Hfail. discriminate.
  - split; [exact H | reflexivity].
Qed.

(** ** Predictions *)

(** What [predict] computes once the model is loaded and every lookup
    succeeds. *)
Lemma predict_run fs s m features prediction probabilities class_names
    predicted_class confidence names :
  _model s = Some m →
  model_predict m features = Return prediction →
  model_predict_proba m features = Return probabilities →
  method_get (_metadata s) "target_names" ModelService.default_class_names
    = Return class_names →
  py_getitem class_names prediction = Return predicted_class →
  ndarray_getitem probabilities prediction = Return confidence →
  py_iter class_names = Return names →
  ModelService.predict features fs s =
    {| value := Return (predicted_class, confidence,
                        dict_comprehension (zip names probabilities));
       final := s;
       trace := [] |}.
Proof.
  intros Hm Hp Hpp Hcn Hc Hconf Hn.
  rewrite predict_outcome. unfold predict_value.
  rewrite Hm, Hp, Hpp, Hcn. cbn [bind_result].
  rewrite Hc, Hconf, Hn. reflexivity.
Qed.

Lemma highest_elem_of (x : float) (xs : list float) (p : float) :
  highest x xs = true → p ∈ xs → PrimFloat.leb p x = true.
Proof.
  unfold highest. rewrite forallb_forall. intros H Hin.
  apply H. by apply list_elem_of_In.
Qed.

Lemma keys_zip (names : list string) (probs : list float) :
  length probs = length names → keys (zip names probs) = names.
Proof. intros Hlen. unfold keys. apply fst_zip. lia. Qed.

Lemma values_zip (names : list string) (probs : list float) :
  length probs = length names → values (zip names probs) = probs.
Proof. intros Hlen. unfold values. apply snd_zip. lia. Qed.

Lemma py_index_None {A} (l : list A) (i : Z) :
  py_index l i = None ↔ ¬ (- Z.of_nat (length l) ≤ i < Z.of_nat (length l)).
Proof. rewrite <- py_index_is_Some, eq_None_not_Some. tauto. Qed.

(** X1: with the model loaded and the metadata a mapping, when the model
    yields an index that selects a class name and a probability, [predict]
    returns that class name (from the metadata's [target_names], or from
    "class_0", "class_1", "class_2" when the metadata has no such entry), the
    probability at the predicted index as the confidence, and the mapping
    built from the names zipped with the probabilities; it writes and logs
    nothing.  The confidence is a largest probability exactly when the model's
    index selects one. *)
Theorem predict_resolves_and_reports (fs : FileSystem) (s : Self) (m : Model)
    (md : dict) (features : list float) (prediction : Z)
    (probabilities : list float) (names : list string)
    (predicted_class : string) (confidence : float) :
  _model s = Some m →
  _metadata s = Some md →
  model_predict m features = Return prediction →
  model_predict_proba m features = Return probabilities →
  (md !! "target_names" = Some (PyList names)
   ∨ md !! "target_names" = None ∧ names = ["class_0"; "class_1"; "class_2"]) →
  py_index names prediction = Some predicted_class →
  py_index probabilities prediction = Some confidence →
  ModelService.predict features fs s =
    {| value := Return (predicted_class, confidence,
                        dict_comprehension (zip names probabilities));
       final := s;
       trace := [] |}
  ∧ highest confidence probabilities = is_argmax prediction probabilities.
Proof.
  intros Hm Hmd Hp Hpp Hnames Hc Hconf. split.
  - eapply (predict_run fs s m features prediction probabilities (PyList names));
      try eassumption.
    + rewrite Hmd. cbn. unfold dict_get.
      destruct Hnames as [-> | [-> ->]]; reflexivity.
    + cbn. by rewrite Hc.
    + unfold ndarray_getitem. by rewrite Hconf.
    + reflexivity.
  - unfold is_argmax. by rewrite Hconf.
Qed.

Lemma predict_resolves_and_reports_witness :
  value (ModelService.predict (Main.features_of Samples.reference_sample)
           Samples.trained Samples.serving)
  = Return ("setosa", 0.75%float,
            [("setosa", 0.75%float); ("versicolor", 0.125%float);
             ("virginica", 0.125%float)]).
Proof.
  destruct (predict_resolves_and_reports Samples.trained Samples.serving
              Samples.setosa_model Samples.iris_metadata
              (Main.features_of Samples.reference_sample) 0
              [0.75; 0.125; 0.125]%float ["setosa"; "versicolor"; "virginica"]
              "setosa" 0.75%float
              eq_refl eq_refl eq_refl eq_refl (or_introl eq_refl) eq_refl eq_refl)
    as [Hrun _].
  rewrite Hrun. reflexivity.
Defined.

(** X2: with the model loaded, the metadata's class list [names] in place and
    the model yielding an index and probabilities, [predict] returns exactly
    when the index lies in [-len, len) of both the class list and the
    probability vector.  Outside the class list it raises [IndexError] "list
    index out of range"; inside the class list but outside the probability
    vector it raises the array's [IndexError].  Either way nothing is
    written. *)
Theorem predict_index_bounds (fs : FileSystem) (s : Self) (m : Model) (md : dict)
    (features : list float) (prediction : Z) (probabilities : list float)
    (names : list string) :
  _model s = Some m →
  _metadata s = Some md →
  model_predict m features = Return prediction →
  model_predict_proba m features = Return probabilities →
  dict_get md "target_names" ModelService.default_class_names = PyList names →
  let o := ModelService.predict features fs s in
  let within {A} (l : list A) :=
    - Z.of_nat (length l) ≤ prediction < Z.of_nat (length l) in
  final o = s
  ∧ (returns (value o) = true ↔ within names ∧ within probabilities)
  ∧ (¬ within names → value o = Raise (PyExc IndexError "list index out of range"))
  ∧ (within names → ¬ within probabilities →
       ∃ msg, value o = Raise (PyExc IndexError msg)).
Proof.
  intros Hm Hmd Hp Hpp Hnames. cbv zeta.
  split; [apply predict_read_only|].
  rewrite predict_outcome. unfold predict_value.
  rewrite Hm, Hp, Hpp, Hmd. cbn [bind_result method_get value].
  rewrite Hnames. cbn [py_getitem py_iter].
  destruct (py_index names prediction) as [c|] eqn:Hc; cbn [bind_result].
  - assert (Hin : - Z.of_nat (length names) ≤ prediction < Z.of_nat (length names))
      by (apply py_index_is_Some; rewrite Hc; eauto).
    unfold ndarray_getitem.
    destruct (py_index probabilities prediction) as [p|] eqn:Hpr;
      cbn [bind_result returns].
    + assert (- Z.of_nat (length probabilities) ≤ prediction
              < Z.of_nat (length probabilities))
        by (apply py_index_is_Some; rewrite Hpr; eauto).
      split_and!; [tauto | tauto | tauto].
    + apply py_index_None in Hpr.
      split_and!; [split; [discriminate | tauto] | tauto | eauto].
  - apply py_index_None in Hc.
    split_and!; [split; [discriminate | tauto] | done | tauto].
Qed.

Lemma predict_index_bounds_witness :
  value (ModelService.predict (Main.features_of Samples.reference_sample)
           Samples.trained
           {| _model := Some Samples.stray_model;
              _metadata := Some Samples.iris_metadata |})
  = Raise (PyExc IndexError "list index out of range").
Proof.
  apply (predict_index_bounds Samples.trained
           {| _model := Some Samples.stray_model;
              _metadata := Some Samples.iris_metadata |}
           Samples.stray_model Samples.iris_metadata
           (Main.features_of Samples.reference_sample) 3
           [0.25; 0.5; 0.25]%float ["setosa"; "versicolor"; "virginica"]);
    try reflexivity.
  cbn. lia.
Defined.

(** X3: an exception raised inside the classifier, by [predict] or, after
    [predict] returned, by [predict_proba], leaves [ModelService.predict]
    unchanged: the same exception, no write, no log, and the metadata is not
    consulted. *)
Theorem predict_model_exception (fs : FileSystem) (s : Self) (m : Model)
    (features : list float) (e : exception) :
  _model s = Some m →
  (model_predict m features = Raise e
   ∨ returns (model_predict m features) = true
     ∧ model_predict_proba m features = Raise e) →
  ModelService.predict features fs s = {| value := Raise e; final := s; trace := [] |}.
Proof.
  intros Hm Hraise. rewrite predict_outcome. unfold predict_value.
  rewrite Hm.
  destruct Hraise as [Hp | [Hp Hpp]].
  - by rewrite Hp.
  - destruct (model_predict m features) as [i|]; [|discriminate].
    cbn [bind_result]. by rewrite Hpp.
Qed.

Lemma predict_model_exception_witness :
  value (ModelService.predict [1%float] Samples.trained
           {| _model := Some Samples.strict_model; _metadata := None |})
  = Raise (PyExc (LibraryError "ValueError") "X has the wrong number of features").
Proof.
  rewrite (predict_model_exception Samples.trained
             {| _model := Some Samples.strict_model; _metadata := None |}
             Samples.strict_model [1%float]
             (PyExc (LibraryError "ValueError") "X has the wrong number of features")
             eq_refl (or_introl eq_refl)).
  reflexivity.
Defined.
